(** * netunnel_jwthenticator: the JWThenticator authentication plugin of NETunnel

    A shallow embedding of [netunnel_jwthenticator/plugin.py] and the
    properties of its two shims:

    - [get_verify_ssl], the collapse of NETunnel's transport security
      setting to the boolean that JWThenticator expects;
    - [JWThenticatorAuthServer], the server side shim;
    - [JWThenticatorAuthClient], the client side shim.

    The plugin is glue between third party libraries ([uuid], [yurl],
    [jwthenticator.client], [os.environ]).  What the plugin needs of them is
    collected in interfaces ([UuidLib], [YurlLib], [JwthenticatorLib]); the
    plugin itself is written once, over any implementation of them.  A
    mutable Python object becomes a record that every method takes and (when
    it assigns to [self]) returns. *)

From Stdlib Require Import String Ascii Bool List.
From stdpp Require Import base option gmap strings.

Local Open Scope string_scope.

(** ** Python values *)

(** The exceptions the plugin raises or lets through.  [ValueError] and
    [RuntimeError] are builtins, the two [NETunnel...] ones come from
    [netunnel.common.exceptions], [AuthenticationError] from
    [jwthenticator.exceptions]; [OtherException] stands for anything else a
    library call can raise (a connection error, say). *)
Inductive exn : Type :=
| ValueError (msg : string)
| RuntimeError (msg : string)
| NETunnelAuthError (msg : string)
| NETunnelNotAuthenticatedError (msg : string)
| AuthenticationError (msg : string)
| OtherException (msg : string).

(** A call either returns a value or raises. *)
Inductive result (A : Type) : Type :=
| Ok (a : A)
| Raise (e : exn).

Arguments Ok {A} a.
Arguments Raise {A} e.

(** Truth value of an [Optional[str]]: [None] and the empty string are
    false, every other string is true. *)
Definition truthy (x : option string) : bool :=
  match x with
  | None => false
  | Some EmptyString => false
  | Some (String _ _) => true
  end.

(** [x or y] for [x : Optional[str]] and [y : str]. *)
Definition str_or (x : option string) (y : string) : string :=
  match x with
  | Some s => if truthy x then s else y
  | None => y
  end.

(** [str(x)] for [x : Optional[str]], as an f-string formats it. *)
Definition py_str (x : option string) : string :=
  match x with
  | Some s => s
  | None => "None"
  end.

(** [os.environ.get(name, fallback)]. *)
Definition environ_get (environ : gmap string string) (name fallback : string) : string :=
  default fallback (environ !! name).

(** ** The [ssl] module, as far as [get_verify_ssl] looks at it *)

Inductive VerifyMode : Type :=
| CERT_NONE
| CERT_OPTIONAL
| CERT_REQUIRED.

Record SSLContext : Type := mkSSLContext {
  verify_mode : VerifyMode;
  check_hostname : bool
}.

(** [ssl.create_default_context()] requires certificates and checks host
    names. *)
Definition create_default_context : SSLContext :=
  {| verify_mode := CERT_REQUIRED; check_hostname := true |}.

(** What a NETunnel client can carry in its [ssl] attribute.  The annotation
    says [Optional[ssl.SSLContext]]; the function also tests for the literal
    [False], and Python lets any other object through ([PyOtherObject]: the
    literal [True], a fingerprint, ...). *)
Inductive ssl_setting : Type :=
| PyNone
| PyFalse
| PySSLContext (ctx : SSLContext)
| PyOtherObject (repr : string).

Definition get_verify_ssl (ssl_context : ssl_setting) : bool :=
  match ssl_context with
  | PyFalse => false
  | PySSLContext ctx =>
      match verify_mode ctx with
      | CERT_NONE => false
      | _ => true
      end
  | _ => true
  end.

(** ** URLs ([yurl]) *)

(** A [yurl.URL] is a named tuple of the seven components of a URL. *)
Record URL : Type := mkURL {
  scheme : string;
  userinfo : string;
  host : string;
  port : string;
  path : string;
  query : string;
  fragment : string
}.

(** [url.replace(path=p)]: a new tuple with that one field changed. *)
Definition URL_replace_path (url : URL) (p : string) : URL :=
  {| scheme := scheme url; userinfo := userinfo url; host := host url;
     port := port url; path := p; query := query url;
     fragment := fragment url |}.

(** Splitting a string into components ([URL(s)]) and the way back
    ([as_string], which is also [str]) are the library's. *)
Class YurlLib : Type := {
  URL_of_string : string -> URL;
  URL_as_string : URL -> string
}.

(** ** UUIDs ([uuid]) *)

(** [UUID(s)] parses or raises [ValueError]; [str(u)] prints. *)
Class UuidLib : Type := {
  UUID : Type;
  UUID_of_string : string -> result UUID;
  UUID_str : UUID -> string
}.

Definition nil_uuid_string : string := "00000000-0000-0000-0000-000000000000".

(** ** The token client ([jwthenticator.client.Client]) *)

(** [Client] is the state of one client object.  A call that goes to the
    token service takes the [Service] as it stands at that moment and gives
    back the object as the call left it, together with the exception it
    raised, if any.  Whether a token has expired depends on the [Time] of
    asking. *)
Class JwthenticatorLib `{UuidLib} : Type := {
  Client : Type;
  Service : Type;
  Time : Type;
  Client_init :
    string -> UUID -> option string -> option string -> bool -> Client;
  Client_authenticate : Service -> Client -> Client * option exn;
  Client_refresh : Service -> Client -> Client * option exn;
  Client_refresh_token : Client -> option string;
  Client_jwt : Client -> option string;
  Client_is_jwt_expired : Time -> Client -> bool
}.

(** What the plugin reads of a [netunnel.client.NETunnelClient]. *)
Record NETunnelClient : Type := mkNETunnelClient {
  server_url : string;
  ssl : ssl_setting
}.

(** The calls a shim makes on its token client, with the object they were
    made on. *)
Inductive ext_call `{JwthenticatorLib} : Type :=
| Call_authenticate (c : Client)
| Call_refresh (c : Client).

(** ** The client side shim *)

Module JWThenticatorAuthClient.

Section Shim.

Context `{JwthenticatorLib} `{YurlLib}.

(** The attributes of an instance.  [_jwthenticator_client] is [None] until
    the first [authenticate]. *)
Record t : Type := mk {
  _remote_uri : string;
  _key : option string;
  _refresh_token : option string;
  _uuid : UUID;
  _jwthenticator_client : option Client
}.

Definition set_jwthenticator_client (self : t) (c : option Client) : t :=
  {| _remote_uri := _remote_uri self; _key := _key self;
     _refresh_token := _refresh_token self; _uuid := _uuid self;
     _jwthenticator_client := c |}.

Definition set_refresh_token (self : t) (tok : option string) : t :=
  {| _remote_uri := _remote_uri self; _key := _key self;
     _refresh_token := tok; _uuid := _uuid self;
     _jwthenticator_client := _jwthenticator_client self |}.

(** The constructor.  The remaining positional and keyword arguments go to
    the initialiser of NETunnel's base class, which keeps nothing of them;
    [environ] is [os.environ] at the time of the call. *)
Definition __init__ (environ : gmap string string)
    (key refresh_token remote_uri uuid : option string) : result t :=
  let remote := str_or remote_uri (environ_get environ "JWTHENTICATOR_URI" "/jwthenticator") in
  match key, refresh_token with
  | None, None => Raise (ValueError "Either `key` or `refresh_token` must be given")
  | _, _ =>
      match UUID_of_string (str_or uuid nil_uuid_string) with
      | Raise e => Raise e
      | Ok u =>
          Ok {| _remote_uri := remote; _key := key;
                _refresh_token := refresh_token; _uuid := u;
                _jwthenticator_client := None |}
      end
  end.

(** [netunnel_url.replace(path=self._remote_uri)] of [authenticate]. *)
Definition jwthenticator_url (self : t) (client : NETunnelClient) : URL :=
  let netunnel_url := URL_of_string (server_url client) in
  URL_replace_path netunnel_url (_remote_uri self).

(** The token client that [authenticate] builds and stores before it calls
    the service. *)
Definition new_jwthenticator_client (self : t) (client : NETunnelClient) : Client :=
  Client_init (URL_as_string (jwthenticator_url self client)) (_uuid self)
    (_key self) (_refresh_token self) (get_verify_ssl (ssl client)).

(** The [except AuthenticationError] clause: that exception is replaced,
    every other one passes. *)
Definition except_AuthenticationError (url : URL) (e : exn) : exn :=
  match e with
  | AuthenticationError _ =>
      NETunnelAuthError ("Failed to authenticate with `" ++ URL_as_string url ++ "`")
  | _ => e
  end.

(** [authenticate]: the instance afterwards, the calls made on the token
    client, and the outcome.  The new token client is assigned to [self]
    first; the calls then change that same object, so [self] sees it as the
    call left it, also when the call raised. *)
Definition authenticate (self : t) (client : NETunnelClient) (service : Service)
    : t * list ext_call * result unit :=
  let url := jwthenticator_url self client in
  let c0 := new_jwthenticator_client self client in
  if truthy (_key self) then
    match Client_authenticate service c0 with
    | (c1, None) =>
        (set_refresh_token (set_jwthenticator_client self (Some c1))
           (Client_refresh_token c1),
         [Call_authenticate c0], Ok tt)
    | (c1, Some e) =>
        (set_jwthenticator_client self (Some c1),
         [Call_authenticate c0], Raise (except_AuthenticationError url e))
    end
  else
    match Client_refresh service c0 with
    | (c1, None) =>
        (set_jwthenticator_client self (Some c1), [Call_refresh c0], Ok tt)
    | (c1, Some e) =>
        (set_jwthenticator_client self (Some c1),
         [Call_refresh c0], Raise (except_AuthenticationError url e))
    end.

Definition is_authenticated (self : t) (now : Time) : bool :=
  match _jwthenticator_client self with
  | None => false
  | Some c => negb (Client_is_jwt_expired now c)
  end.

Definition get_authorized_headers (self : t) (now : Time)
    : result (gmap string string) :=
  if negb (is_authenticated self now) then
    Raise (NETunnelNotAuthenticatedError
             "Cannot generate authorized headers without authenticating first")
  else
    match _jwthenticator_client self with
    | Some c => Ok {[ "Authorization" := "Bearer " ++ py_str (Client_jwt c) ]}
    | None => Raise (OtherException "'NoneType' object has no attribute 'jwt'")
    end.

Definition dump_object (self : t) : result (gmap string string) :=
  match _refresh_token self with
  | None =>
      Raise (NETunnelNotAuthenticatedError
               "Cannot dump object without authenticating first")
  | Some tok => Ok (<[ "refresh_token" := tok ]> {[ "uuid" := UUID_str (_uuid self) ]})
  end.

(** *** Sequences of calls on one instance *)

Inductive op : Type :=
| Authenticate (client : NETunnelClient) (service : Service)
| IsAuthenticated (now : Time)
| GetAuthorizedHeaders (now : Time)
| DumpObject.

Inductive value : Type :=
| VNone
| VBool (b : bool)
| VDict (d : gmap string string).

Definition returning {A : Type} (f : A -> value) (r : result A) : result value :=
  match r with
  | Ok a => Ok (f a)
  | Raise e => Raise e
  end.

(** One call: the instance afterwards and what the caller gets.  Only
    [authenticate] assigns to [self]. *)
Definition step (self : t) (o : op) : t * result value :=
  match o with
  | Authenticate client service =>
      let '(self', _, r) := authenticate self client service in
      (self', returning (fun _ => VNone) r)
  | IsAuthenticated now => (self, Ok (VBool (is_authenticated self now)))
  | GetAuthorizedHeaders now => (self, returning VDict (get_authorized_headers self now))
  | DumpObject => (self, returning VDict (dump_object self))
  end.

Definition succeeds (self : t) (o : op) : bool :=
  match snd (step self o) with
  | Ok _ => true
  | Raise _ => false
  end.

(** The instance after a sequence of calls, whatever each of them returned
    or raised. *)
Fixpoint run (self : t) (os : list op) : t :=
  match os with
  | [] => self
  | o :: os' => run (fst (step self o)) os'
  end.

(** No [authenticate] of the sequence returns normally. *)
Fixpoint no_successful_authenticate (self : t) (os : list op) : bool :=
  match os with
  | [] => true
  | o :: os' =>
      match o with
      | Authenticate _ _ => negb (succeeds self o)
      | _ => true
      end && no_successful_authenticate (fst (step self o)) os'
  end.

End Shim.

End JWThenticatorAuthClient.

(** ** The server side shim *)

Module JWThenticatorAuthServer.

Section Shim.

Context `{JwthenticatorLib} `{YurlLib} {Request : Type}.

Record t : Type := mk {
  _remote_uri : string
}.

(** The constructor; the remaining arguments go to the initialiser of
    NETunnel's base class. *)
Definition __init__ (environ : gmap string string) (remote_uri : option string) : t :=
  {| _remote_uri :=
       str_or remote_uri (environ_get environ "JWTHENTICATOR_URI" "/jwthenticator") |}.

(** The client side shim for a peer, built with the sub-path of this one.
    The identifier goes to the constructor as it came; the constructor
    reads it as a string. *)
Definition get_client_for_peer (self : t) (environ : gmap string string)
    (key refresh_token uuid : option string) : result JWThenticatorAuthClient.t :=
  JWThenticatorAuthClient.__init__ environ key refresh_token
    (Some (_remote_uri self)) uuid.

Definition is_authenticated (self : t) (request : Request) : bool := true.

Definition authenticate (self : t) (request : Request) : result unit :=
  Raise (RuntimeError
           "Authentication should be handled by an external JWThenticator server").

(** Calls on one instance; none of the methods assigns to [self]. *)
Inductive op : Type :=
| IsAuthenticated (request : Request)
| Authenticate (request : Request).

Definition step (self : t) (o : op) : t * result (option bool) :=
  match o with
  | IsAuthenticated request => (self, Ok (Some (is_authenticated self request)))
  | Authenticate request =>
      (self, match authenticate self request with
             | Ok _ => Ok None
             | Raise e => Raise e
             end)
  end.

End Shim.

End JWThenticatorAuthServer.

(** ** Stand-ins for the libraries

    Small executable implementations of the three interfaces, on which the
    shims can be run on concrete inputs.  They cover the canonical text form
    of a UUID, URLs of the shape
    [scheme://[userinfo@]host[:port][/path][?query][#fragment]], and a token
    service that either rejects every call or issues what it is told to. *)

Module Sim.

(** [s] split at the first occurrence of [sep]. *)
Definition cut (sep s : string) : option (string * string) :=
  match index 0 sep s with
  | Some i =>
      Some (substring 0 i s,
            substring (i + String.length sep)
              (String.length s - (i + String.length sep)) s)
  | None => None
  end.

Definition cut_or (sep s : string) (otherwise : string * string) : string * string :=
  match cut sep s with
  | Some p => p
  | None => otherwise
  end.

Definition url_of_string (s : string) : URL :=
  let '(s1, frag) := cut_or "#" s (s, "") in
  let '(s2, qry) := cut_or "?" s1 (s1, "") in
  let '(sch, s3) := cut_or "://" s2 ("", s2) in
  let '(auth, pth) :=
    match cut "/" s3 with
    | Some (a, p) => (a, "/" ++ p)
    | None => (s3, "")
    end in
  let '(usr, hostport) := cut_or "@" auth ("", auth) in
  let '(hst, prt) := cut_or ":" hostport (hostport, "") in
  {| scheme := sch; userinfo := usr; host := hst; port := prt; path := pth;
     query := qry; fragment := frag |}.

Definition prefixed (sep s : string) : string :=
  match s with
  | EmptyString => ""
  | _ => sep ++ s
  end.

Definition suffixed (s sep : string) : string :=
  match s with
  | EmptyString => ""
  | _ => s ++ sep
  end.

Definition url_as_string (u : URL) : string :=
  suffixed (scheme u) "://" ++ suffixed (userinfo u) "@" ++ host u
    ++ prefixed ":" (port u) ++ path u ++ prefixed "?" (query u)
    ++ prefixed "#" (fragment u).

#[export] Instance yurl : YurlLib :=
  {| URL_of_string := url_of_string; URL_as_string := url_as_string |}.

Definition is_hex_digit (a : ascii) : bool :=
  let n := nat_of_ascii a in
  ((48 <=? n)%nat && (n <=? 57)%nat) || ((97 <=? n)%nat && (n <=? 102)%nat).

Fixpoint all_hex (s : string) : bool :=
  match s with
  | EmptyString => true
  | String a s' => is_hex_digit a && all_hex s'
  end.

Fixpoint without_dashes (s : string) : string :=
  match s with
  | EmptyString => EmptyString
  | String a s' =>
      if Ascii.eqb a "-"%char then without_dashes s'
      else String a (without_dashes s')
  end.

(** A UUID is kept as its 32 hexadecimal digits. *)
Definition uuid_of_string (s : string) : result string :=
  let hex := without_dashes s in
  if (String.length hex =? 32)%nat && all_hex hex then Ok hex
  else Raise (ValueError "badly formed hexadecimal UUID string").

Definition uuid_str (hex : string) : string :=
  substring 0 8 hex ++ "-" ++ substring 8 4 hex ++ "-" ++ substring 12 4 hex
    ++ "-" ++ substring 16 4 hex ++ "-" ++ substring 20 12 hex.

#[export] Instance uuid : UuidLib :=
  {| UUID := string; UUID_of_string := uuid_of_string; UUID_str := uuid_str |}.

(** A token client: what it was built with, and the session token it holds
    with the time at which that one expires. *)
Record client : Type := mk_client {
  jwthenticator_server : string;
  identifier : string;
  key : option string;
  refresh_token : option string;
  verify_ssl : bool;
  jwt : option string;
  jwt_exp : option Z
}.

Definition client_init (server : string) (ident : string)
    (k tok : option string) (verify : bool) : client :=
  {| jwthenticator_server := server; identifier := ident; key := k;
     refresh_token := tok; verify_ssl := verify; jwt := None;
     jwt_exp := None |}.

(** The service at the time of one call. *)
Inductive service : Type :=
| Rejects
| Issues (session_token new_refresh_token : string) (expires : Z).

Definition client_authenticate (svc : service) (c : client) : client * option exn :=
  match key c, svc with
  | None, _ => (c, Some (OtherException "No key was given"))
  | Some _, Rejects => (c, Some (AuthenticationError "Failed to authenticate"))
  | Some _, Issues j r e =>
      ({| jwthenticator_server := jwthenticator_server c;
          identifier := identifier c; key := key c;
          refresh_token := Some r; verify_ssl := verify_ssl c;
          jwt := Some j; jwt_exp := Some e |}, None)
  end.

Definition client_refresh (svc : service) (c : client) : client * option exn :=
  match refresh_token c, svc with
  | None, _ => (c, Some (OtherException "No refresh token was given"))
  | Some _, Rejects => (c, Some (AuthenticationError "Failed to refresh"))
  | Some _, Issues j _ e =>
      ({| jwthenticator_server := jwthenticator_server c;
          identifier := identifier c; key := key c;
          refresh_token := refresh_token c; verify_ssl := verify_ssl c;
          jwt := Some j; jwt_exp := Some e |}, None)
  end.

Definition client_is_jwt_expired (now : Z) (c : client) : bool :=
  match jwt_exp c with
  | None => true
  | Some e => (e <=? now)%Z
  end.

#[export] Instance jwthenticator : JwthenticatorLib :=
  {| Client := client; Service := service; Time := Z;
     Client_init := client_init;
     Client_authenticate := client_authenticate;
     Client_refresh := client_refresh;
     Client_refresh_token := refresh_token;
     Client_jwt := jwt;
     Client_is_jwt_expired := client_is_jwt_expired |}.

End Sim.

(** ** Concrete inputs

    A NETunnel client, shims and a token service over the stand-ins, on
    which the properties below are instantiated. *)

Module Scenario.

Import Sim.

Definition nil_uuid : UUID := "00000000000000000000000000000000".

Definition peer : NETunnelClient :=
  {| server_url := "https://host:9999/anything"; ssl := PyNone |}.

(** The shim the constructor returns for a key and a refresh token, with no
    sub-path, no identifier and an empty environment. *)
Definition constructed (k tok : option string) : JWThenticatorAuthClient.t :=
  JWThenticatorAuthClient.mk "/jwthenticator" k tok nil_uuid None.

(** A service that accepts, and what it issues. *)
Definition accepting : service := Issues "jwt-1" "refresh-1" 100.

(** The token client a shim with key ["secret"] holds once [accepting] has
    served its [authenticate]. *)
Definition served : client :=
  {| jwthenticator_server := "https://host:9999/jwthenticator";
     identifier := nil_uuid; key := Some "secret";
     refresh_token := Some "refresh-1"; verify_ssl := true;
     jwt := Some "jwt-1"; jwt_exp := Some 100%Z |}.

Definition authenticated : JWThenticatorAuthClient.t :=
  JWThenticatorAuthClient.mk "/jwthenticator" (Some "secret")
    (Some "refresh-1") nil_uuid (Some served).

End Scenario.

(** ** Vocabulary of the properties *)

(** The settings that ask for no verification, in the words of the
    specification: transport security disabled, or an explicit context whose
    verification mode is [CERT_NONE]. *)
Definition no_verification (x : ssl_setting) : Prop :=
  x = PyFalse \/ exists ctx, x = PySSLContext ctx /\ verify_mode ctx = CERT_NONE.

(** The resolution in the words of the specification: the argument if it is
    given, else the environment variable if it is set, else the default. *)
Definition spec_remote_uri (remote_uri : option string)
    (environ : gmap string string) : string :=
  match remote_uri with
  | Some s => s
  | None =>
      match environ !! "JWTHENTICATOR_URI" with
      | Some v => v
      | None => "/jwthenticator"
      end
  end.

Section ClientVocabulary.

Context `{JwthenticatorLib} `{YurlLib}.

Import JWThenticatorAuthClient.

(** The exception of the constructor's check. *)
Definition configuration_error : exn :=
  ValueError "Either `key` or `refresh_token` must be given".

Definition not_authenticated_headers : exn :=
  NETunnelNotAuthenticatedError
    "Cannot generate authorized headers without authenticating first".

Definition not_authenticated_dump : exn :=
  NETunnelNotAuthenticatedError "Cannot dump object without authenticating first".

(** The exception [authenticate] raises when the service rejects. *)
Definition auth_error (self : t) (client : NETunnelClient) : exn :=
  NETunnelAuthError
    ("Failed to authenticate with `"
       ++ URL_as_string (jwthenticator_url self client) ++ "`").

(** The call that [authenticate] makes on the token client: the full
    authentication with a key that counts as true, the refresh otherwise. *)
Definition token_call (self : t) : Service -> Client -> Client * option exn :=
  if truthy (_key self) then Client_authenticate else Client_refresh.

Definition token_call_event (self : t) (c : Client) : ext_call :=
  if truthy (_key self) then Call_authenticate c else Call_refresh c.

(** The dictionary of [dump_object]. *)
Definition durable_state (tok : string) (u : UUID) : gmap string string :=
  <[ "refresh_token" := tok ]> {[ "uuid" := UUID_str u ]}.

End ClientVocabulary.

Section LifetimeVocabulary.

Context `{JwthenticatorLib} `{YurlLib}.

Import JWThenticatorAuthClient.

(** The calls on token clients that a sequence of calls on the shim makes,
    in order. *)
Fixpoint run_calls (self : t) (os : list op) : list ext_call :=
  match os with
  | [] => []
  | o :: os' =>
      (match o with
       | Authenticate client service => snd (fst (authenticate self client service))
       | _ => []
       end ++ run_calls (fst (step self o)) os')%list
  end.

Definition is_full_authentication (c : ext_call) : bool :=
  match c with
  | Call_authenticate _ => true
  | Call_refresh _ => false
  end.

(** The token client a call was made on. *)
Definition called_on (c : ext_call) : Client :=
  match c with
  | Call_authenticate x => x
  | Call_refresh x => x
  end.

Definition is_Authenticate (o : op) : bool :=
  match o with
  | Authenticate _ _ => true
  | _ => false
  end.

(** What the constructor checks: a key or a refresh token is there. *)
Definition holds_credential (self : t) : Prop :=
  _key self <> None \/ _refresh_token self <> None.

End LifetimeVocabulary.

(** * Properties *)

(** ** [get_verify_ssl] *)

Lemma get_verify_ssl_context (ctx : SSLContext) :
  get_verify_ssl (PySSLContext ctx) = false <-> verify_mode ctx = CERT_NONE.
Proof.
  unfold get_verify_ssl. destruct (verify_mode ctx); split; congruence.
Qed.

(** C2: [get_verify_ssl] is false exactly on [False] and on a context with
    [CERT_NONE], and true on everything else: on [None], on the default
    context, on a context that requires (or merely accepts) certificates, and
    on any other object. *)
Theorem get_verify_ssl_spec (x : ssl_setting) :
  (get_verify_ssl x = false <-> no_verification x)
  /\ (get_verify_ssl x = true <-> ~ no_verification x)
  /\ get_verify_ssl PyNone = true
  /\ get_verify_ssl (PySSLContext create_default_context) = true
  /\ (forall h, get_verify_ssl (PySSLContext (mkSSLContext CERT_REQUIRED h)) = true)
  /\ (forall h, get_verify_ssl (PySSLContext (mkSSLContext CERT_OPTIONAL h)) = true)
  /\ (forall h, get_verify_ssl (PySSLContext (mkSSLContext CERT_NONE h)) = false)
  /\ get_verify_ssl PyFalse = false.
Proof.
  assert (Hfalse : get_verify_ssl x = false <-> no_verification x).
  { unfold no_verification. destruct x as [| |ctx|r].
    - split; [discriminate|]. intros [Hx|(c & Hx & _)]; discriminate.
    - split; [now left|reflexivity].
    - rewrite get_verify_ssl_context. split.
      + intros Hm. right. now exists ctx.
      + intros [Hx|(c & Hx & Hm)]; [discriminate|]. now injection Hx as ->.
    - split; [discriminate|]. intros [Hx|(c & Hx & _)]; discriminate. }
  split; [exact Hfalse|]. split.
  - rewrite <- Hfalse. destruct (get_verify_ssl x); split; congruence.
  - repeat split; reflexivity.
Qed.

(** ** The server side shim *)

Section ServerProperties.

Context `{JwthenticatorLib} `{YurlLib} {Request : Type}.

Import JWThenticatorAuthServer.

(** C8: whatever the request, [is_authenticated] answers [True] and
    [authenticate] raises the [RuntimeError]; neither changes the shim. *)
Theorem server_never_verifies (self : t) (request : Request) :
  is_authenticated self request = true
  /\ step self (IsAuthenticated request) = (self, Ok (Some true))
  /\ authenticate self request =
       Raise (RuntimeError
                "Authentication should be handled by an external JWThenticator server")
  /\ (forall r, authenticate self request <> Ok r)
  /\ step self (Authenticate request) =
       (self, Raise (RuntimeError
                "Authentication should be handled by an external JWThenticator server")).
Proof.
  split; [reflexivity|]. split; [reflexivity|]. split; [reflexivity|].
  split; [|reflexivity].
  intros r. unfold authenticate. discriminate.
Qed.

End ServerProperties.

(** ** The remote sub-path *)

Lemma str_or_truthy (x : option string) (s y : string) :
  x = Some s -> s <> "" -> str_or x y = s.
Proof.
  intros -> Hs. destruct s; [contradiction|reflexivity].
Qed.

Lemma str_or_falsy (x : option string) (y : string) :
  x = None \/ x = Some "" -> str_or x y = y.
Proof.
  intros [->| ->]; reflexivity.
Qed.

Lemma client_init_remote_uri `{JwthenticatorLib} (environ : gmap string string)
    (key refresh_token remote_uri uuid : option string)
    (self : JWThenticatorAuthClient.t) :
  JWThenticatorAuthClient.__init__ environ key refresh_token remote_uri uuid = Ok self ->
  JWThenticatorAuthClient._remote_uri self =
    str_or remote_uri (environ_get environ "JWTHENTICATOR_URI" "/jwthenticator").
Proof.
  unfold JWThenticatorAuthClient.__init__.
  destruct key, refresh_token; try discriminate;
    destruct (UUID_of_string _); try discriminate;
    intros [= <-]; reflexivity.
Qed.

(** C9, as the code has it: both constructors resolve the sub-path the same
    way.  A non-empty argument wins; without an argument, or with the empty
    string for one, the environment variable is taken if it is set (whatever
    its value) and ["/jwthenticator"] otherwise.  Except for the empty
    string as argument this is the resolution of the specification. *)
Theorem remote_uri_resolution `{JwthenticatorLib} (environ : gmap string string)
    (remote_uri key refresh_token uuid : option string) :
  let server_uri :=
    JWThenticatorAuthServer._remote_uri
      (JWThenticatorAuthServer.__init__ environ remote_uri) in
  (forall self,
      JWThenticatorAuthClient.__init__ environ key refresh_token remote_uri uuid = Ok self ->
      JWThenticatorAuthClient._remote_uri self = server_uri)
  /\ (forall s, remote_uri = Some s -> s <> "" -> server_uri = s)
  /\ (forall v, remote_uri = None \/ remote_uri = Some "" ->
        environ !! "JWTHENTICATOR_URI" = Some v -> server_uri = v)
  /\ (remote_uri = None \/ remote_uri = Some "" ->
        environ !! "JWTHENTICATOR_URI" = None -> server_uri = "/jwthenticator")
  /\ (remote_uri <> Some "" -> server_uri = spec_remote_uri remote_uri environ).
Proof.
  cbn zeta. unfold JWThenticatorAuthServer.__init__. cbn [JWThenticatorAuthServer._remote_uri].
  repeat split.
  - intros self Hinit. now apply client_init_remote_uri in Hinit.
  - intros s Hs Hne. now apply str_or_truthy.
  - intros v Hru Henv. rewrite str_or_falsy by exact Hru.
    unfold environ_get. now rewrite Henv.
  - intros Hru Henv. rewrite str_or_falsy by exact Hru.
    unfold environ_get. now rewrite Henv.
  - intros Hne. unfold spec_remote_uri, environ_get.
    destruct remote_uri as [[|a s]|]; [contradiction|reflexivity|].
    cbn. now destruct (environ !! "JWTHENTICATOR_URI").
Qed.

(** ** The client side shim *)

Section ClientProperties.

Context `{JwthenticatorLib} `{YurlLib}.

Import JWThenticatorAuthClient.

Lemma truthy_Some (k : string) : k <> "" -> truthy (Some k) = true.
Proof. destruct k; [contradiction|reflexivity]. Qed.

Lemma truthy_false (x : option string) :
  truthy x = false <-> x = None \/ x = Some "".
Proof.
  destruct x as [[|a s]|]; cbn; split; try discriminate; auto.
  intros [Hx|Hx]; discriminate.
Qed.

(** *** What [authenticate] does, by the outcome of the call *)

Lemma authenticate_raised (self : t) (client : NETunnelClient) (service : Service)
    (c1 : Client) (e : exn) :
  token_call self service (new_jwthenticator_client self client) = (c1, Some e) ->
  authenticate self client service =
    (set_jwthenticator_client self (Some c1),
     [token_call_event self (new_jwthenticator_client self client)],
     Raise (except_AuthenticationError (jwthenticator_url self client) e)).
Proof.
  unfold token_call, token_call_event, authenticate.
  destruct (truthy (_key self)); intros ->; reflexivity.
Qed.

Lemma authenticate_returned (self : t) (client : NETunnelClient) (service : Service)
    (c1 : Client) :
  token_call self service (new_jwthenticator_client self client) = (c1, None) ->
  authenticate self client service =
    (if truthy (_key self)
     then set_refresh_token (set_jwthenticator_client self (Some c1))
            (Client_refresh_token c1)
     else set_jwthenticator_client self (Some c1),
     [token_call_event self (new_jwthenticator_client self client)],
     Ok tt).
Proof.
  unfold token_call, token_call_event, authenticate.
  destruct (truthy (_key self)); intros ->; reflexivity.
Qed.

(** Every [authenticate] stores a token client, the one the call left. *)
Lemma authenticate_stores_client (self : t) (client : NETunnelClient) (service : Service) :
  _jwthenticator_client (fst (fst (authenticate self client service))) =
    Some (fst (token_call self service (new_jwthenticator_client self client))).
Proof.
  destruct (token_call self service (new_jwthenticator_client self client))
    as [c1 [e|]] eqn:Hcall.
  - now rewrite (authenticate_raised _ _ _ _ _ Hcall).
  - rewrite (authenticate_returned _ _ _ _ Hcall).
    now destruct (truthy (_key self)).
Qed.

(** No [authenticate] touches the sub-path, the key or the identifier. *)
Lemma authenticate_frame (self : t) (client : NETunnelClient) (service : Service) :
  let self' := fst (fst (authenticate self client service)) in
  _remote_uri self' = _remote_uri self
  /\ _key self' = _key self
  /\ _uuid self' = _uuid self.
Proof.
  destruct (token_call self service (new_jwthenticator_client self client))
    as [c1 [e|]] eqn:Hcall.
  - now rewrite (authenticate_raised _ _ _ _ _ Hcall).
  - rewrite (authenticate_returned _ _ _ _ Hcall).
    now destruct (truthy (_key self)).
Qed.

(** An [authenticate] that raises leaves the refresh token. *)
Lemma authenticate_raise_refresh_token (self self' : t) (client : NETunnelClient)
    (service : Service) (calls : list ext_call) (e : exn) :
  authenticate self client service = (self', calls, Raise e) ->
  _refresh_token self' = _refresh_token self.
Proof.
  destruct (token_call self service (new_jwthenticator_client self client))
    as [c1 [e1|]] eqn:Hcall.
  - rewrite (authenticate_raised _ _ _ _ _ Hcall). now intros [= <- _ _].
  - rewrite (authenticate_returned _ _ _ _ Hcall). discriminate.
Qed.

Lemma dump_object_fields (self self' : t) :
  _refresh_token self' = _refresh_token self ->
  _uuid self' = _uuid self ->
  dump_object self' = dump_object self.
Proof.
  unfold dump_object. now intros -> ->.
Qed.

Lemma init_fields (environ : gmap string string)
    (key refresh_token remote_uri uuid : option string) (self : t) :
  __init__ environ key refresh_token remote_uri uuid = Ok self ->
  _key self = key
  /\ _refresh_token self = refresh_token
  /\ UUID_of_string (str_or uuid nil_uuid_string) = Ok (_uuid self)
  /\ _jwthenticator_client self = None.
Proof.
  unfold __init__.
  destruct key, refresh_token; try discriminate;
    destruct (UUID_of_string _); try discriminate;
    intros [= <-]; repeat split.
Qed.

(** *** The constructor *)

(** C3: without a key and without a refresh token the constructor raises the
    configuration error, whatever the other arguments and the environment.
    With one of the two it passes that check: it returns an instance, or
    raises what [UUID] raised on the identifier, which is not the
    configuration error as long as [UUID] has its own messages. *)
Theorem init_needs_key_or_refresh_token (environ : gmap string string)
    (key refresh_token remote_uri uuid : option string) :
  __init__ environ None None remote_uri uuid = Raise configuration_error
  /\ (key <> None \/ refresh_token <> None ->
      (exists self, __init__ environ key refresh_token remote_uri uuid = Ok self)
      \/ (exists e, UUID_of_string (str_or uuid nil_uuid_string) = Raise e
            /\ __init__ environ key refresh_token remote_uri uuid = Raise e))
  /\ ((forall s, UUID_of_string s <> Raise configuration_error) ->
      key <> None \/ refresh_token <> None ->
      __init__ environ key refresh_token remote_uri uuid <> Raise configuration_error).
Proof.
  split; [reflexivity|].
  assert (Hpass : key <> None \/ refresh_token <> None ->
            __init__ environ key refresh_token remote_uri uuid =
              match UUID_of_string (str_or uuid nil_uuid_string) with
              | Raise e => Raise e
              | Ok u =>
                  Ok {| _remote_uri :=
                          str_or remote_uri
                            (environ_get environ "JWTHENTICATOR_URI" "/jwthenticator");
                        _key := key; _refresh_token := refresh_token;
                        _uuid := u; _jwthenticator_client := None |}
              end).
  { unfold __init__. destruct key, refresh_token; try reflexivity.
    intros [Hk|Hr]; contradiction. }
  split.
  - intros Hone. rewrite (Hpass Hone).
    destruct (UUID_of_string (str_or uuid nil_uuid_string)) as [u|e].
    + left. eexists. reflexivity.
    + right. exists e. split; reflexivity.
  - intros Huuid Hone. rewrite (Hpass Hone).
    destruct (UUID_of_string (str_or uuid nil_uuid_string)) as [u|e] eqn:Hu.
    + discriminate.
    + intros [= ->]. exact (Huuid _ Hu).
Qed.

(** *** The endpoint *)

(** C4: the endpoint is the server URL of the NETunnel client with the path
    replaced by the sub-path and every other component kept, and
    [authenticate] builds its token client on the string of that URL: it is
    the object the call is made on, and what the call leaves of it is what
    the shim holds afterwards. *)
Theorem authenticate_endpoint (self : t) (client : NETunnelClient) (service : Service) :
  let base := URL_of_string (server_url client) in
  let endpoint := jwthenticator_url self client in
  let c0 :=
    Client_init (URL_as_string endpoint) (_uuid self) (_key self)
      (_refresh_token self) (get_verify_ssl (ssl client)) in
  endpoint = URL_replace_path base (_remote_uri self)
  /\ path endpoint = _remote_uri self
  /\ scheme endpoint = scheme base
  /\ userinfo endpoint = userinfo base
  /\ host endpoint = host base
  /\ port endpoint = port base
  /\ query endpoint = query base
  /\ fragment endpoint = fragment base
  /\ (snd (fst (authenticate self client service)) = [Call_authenticate c0]
      \/ snd (fst (authenticate self client service)) = [Call_refresh c0])
  /\ _jwthenticator_client (fst (fst (authenticate self client service))) =
       Some (fst (token_call self service c0)).
Proof.
  cbn zeta. repeat (split; [reflexivity|]). split.
  - unfold authenticate, new_jwthenticator_client.
    destruct (truthy (_key self)).
    + left. now destruct (Client_authenticate service _) as [c1 [e|]].
    + right. now destruct (Client_refresh service _) as [c1 [e|]].
  - apply authenticate_stores_client.
Qed.

(** *** A rejected [authenticate] *)

(** C1, as the code has it: when the call on the token client raises an
    [AuthenticationError], [authenticate] raises [NETunnelAuthError] naming
    the endpoint.  The sub-path, the key, the refresh token and the
    identifier are what they were.  The token client is not: the shim now
    holds the one built for this attempt, as the failed call left it, and
    [is_authenticated] answers for that one. *)
Theorem authenticate_rejected (self : t) (client : NETunnelClient) (service : Service)
    (c1 : Client) (msg : string) :
  token_call self service (new_jwthenticator_client self client) =
    (c1, Some (AuthenticationError msg)) ->
  let '(self', calls, r) := authenticate self client service in
  r = Raise (auth_error self client)
  /\ calls = [token_call_event self (new_jwthenticator_client self client)]
  /\ _remote_uri self' = _remote_uri self
  /\ _key self' = _key self
  /\ _refresh_token self' = _refresh_token self
  /\ _uuid self' = _uuid self
  /\ _jwthenticator_client self' = Some c1
  /\ (forall now, is_authenticated self' now = negb (Client_is_jwt_expired now c1)).
Proof.
  intros Hcall. rewrite (authenticate_raised _ _ _ _ _ Hcall).
  repeat split.
Qed.

(** *** The readers *)

(** C5: [get_authorized_headers] raises [NETunnelNotAuthenticatedError]
    exactly when [is_authenticated] is false at that time; otherwise it
    returns the one-entry dictionary with the session token of the token
    client.  A shim that comes out of the constructor is not authenticated,
    so it raises. *)
Theorem get_authorized_headers_spec (self : t) (now : Time) :
  (get_authorized_headers self now = Raise not_authenticated_headers
   <-> is_authenticated self now = false)
  /\ ((exists msg, get_authorized_headers self now =
                     Raise (NETunnelNotAuthenticatedError msg))
      <-> is_authenticated self now = false)
  /\ (is_authenticated self now = true ->
      exists c, _jwthenticator_client self = Some c
        /\ get_authorized_headers self now =
             Ok {[ "Authorization" := "Bearer " ++ py_str (Client_jwt c) ]}
        /\ forall tok, Client_jwt c = Some tok ->
             get_authorized_headers self now =
               Ok {[ "Authorization" := "Bearer " ++ tok ]})
  /\ (forall environ key refresh_token remote_uri uuid,
      __init__ environ key refresh_token remote_uri uuid = Ok self ->
      is_authenticated self now = false
      /\ get_authorized_headers self now = Raise not_authenticated_headers).
Proof.
  assert (Hno : is_authenticated self now = false ->
                get_authorized_headers self now = Raise not_authenticated_headers).
  { unfold get_authorized_headers. now intros ->. }
  assert (Hyes : is_authenticated self now = true ->
                 exists c, _jwthenticator_client self = Some c
                   /\ get_authorized_headers self now =
                        Ok {[ "Authorization" := "Bearer " ++ py_str (Client_jwt c) ]}).
  { unfold get_authorized_headers. intros Hauth. rewrite Hauth.
    unfold is_authenticated in Hauth.
    destruct (_jwthenticator_client self) as [c|]; [|discriminate].
    now exists c. }
  split; [|split; [|split]].
  - split; [|exact Hno].
    destruct (is_authenticated self now) eqn:Hauth; [|reflexivity].
    destruct (Hyes eq_refl) as (c & _ & ->). discriminate.
  - split.
    + destruct (is_authenticated self now) eqn:Hauth; [|reflexivity].
      destruct (Hyes eq_refl) as (c & _ & ->). intros [msg Hmsg]. discriminate.
    + intros Hauth. eexists. exact (Hno Hauth).
  - intros Hauth. destruct (Hyes Hauth) as (c & Hc & Hget).
    exists c. split; [exact Hc|]. split; [exact Hget|].
    intros tok Htok. rewrite Hget, Htok. reflexivity.
  - intros environ key refresh_token remote_uri uuid Hinit.
    apply init_fields in Hinit as (_ & _ & _ & Hc).
    assert (Hauth : is_authenticated self now = false).
    { unfold is_authenticated. now rewrite Hc. }
    split; [exact Hauth|exact (Hno Hauth)].
Qed.

(** C6: [dump_object] raises [NETunnelNotAuthenticatedError] exactly when the
    shim holds no refresh token; otherwise it returns the dictionary of that
    token and of the string of the identifier, and nothing else.  The token
    held is the one given to the constructor until an [authenticate] with a
    key returns and puts the token client's in its place. *)
Theorem dump_object_spec (self : t) :
  (dump_object self = Raise not_authenticated_dump <-> _refresh_token self = None)
  /\ ((exists msg, dump_object self = Raise (NETunnelNotAuthenticatedError msg))
      <-> _refresh_token self = None)
  /\ (forall tok, _refresh_token self = Some tok ->
      dump_object self = Ok (durable_state tok (_uuid self))
      /\ durable_state tok (_uuid self) !! "refresh_token" = Some tok
      /\ durable_state tok (_uuid self) !! "uuid" = Some (UUID_str (_uuid self))
      /\ dom (durable_state tok (_uuid self)) = {[ "refresh_token"; "uuid" ]})
  /\ (forall environ key refresh_token remote_uri uuid,
      __init__ environ key refresh_token remote_uri uuid = Ok self ->
      _refresh_token self = refresh_token)
  /\ (forall client service,
      let '(self', calls, r) := authenticate self client service in
      _refresh_token self' =
        match r with
        | Ok _ =>
            if truthy (_key self)
            then Client_refresh_token
                   (fst (Client_authenticate service
                           (new_jwthenticator_client self client)))
            else _refresh_token self
        | Raise _ => _refresh_token self
        end).
Proof.
  unfold dump_object. split; [|split; [|split; [|split]]].
  - split; [now destruct (_refresh_token self)|now intros ->].
  - split.
    + destruct (_refresh_token self); [|reflexivity].
      intros [msg Hmsg]. discriminate.
    + intros ->. now eexists.
  - intros tok ->. unfold durable_state. split; [reflexivity|]. split.
    { now rewrite lookup_insert_eq. }
    split.
    { rewrite lookup_insert_ne by discriminate. now rewrite lookup_singleton_eq. }
    rewrite dom_insert_L, dom_singleton_L. reflexivity.
  - intros environ key refresh_token remote_uri uuid Hinit.
    now apply init_fields in Hinit as (_ & Hr & _).
  - intros client service. unfold authenticate.
    destruct (truthy (_key self)).
    + now destruct (Client_authenticate service _) as [c1 [e|]].
    + now destruct (Client_refresh service _) as [c1 [e|]].
Qed.

(** *** A successful [authenticate] *)

(** C7, as the code has it: the choice between the two operations is made on
    the truth value of the key.  With a non-empty key [authenticate] makes
    the full authentication call (and no other); when that returns, the
    refresh token of the token client replaces the one held, the shim is
    authenticated as long as the new session token has not expired, and
    [dump_object] gives the new refresh token with the identifier.  Without
    a key, or with the empty string for a key, it makes the refresh call
    (and no other) and keeps the refresh token it holds. *)
Theorem authenticate_by_key (self : t) (client : NETunnelClient) (service : Service) :
  let c0 := new_jwthenticator_client self client in
  (forall k c1,
      _key self = Some k -> k <> "" ->
      Client_authenticate service c0 = (c1, None) ->
      let self' :=
        set_refresh_token (set_jwthenticator_client self (Some c1))
          (Client_refresh_token c1) in
      authenticate self client service = (self', [Call_authenticate c0], Ok tt)
      /\ _refresh_token self' = Client_refresh_token c1
      /\ _jwthenticator_client self' = Some c1
      /\ (forall now, Client_is_jwt_expired now c1 = false ->
            is_authenticated self' now = true)
      /\ (forall tok, Client_refresh_token c1 = Some tok ->
            dump_object self' = Ok (durable_state tok (_uuid self))))
  /\ (forall k, _key self = Some k -> k <> "" ->
      snd (fst (authenticate self client service)) = [Call_authenticate c0])
  /\ (_key self = None \/ _key self = Some "" ->
      snd (fst (authenticate self client service)) = [Call_refresh c0]
      /\ _refresh_token (fst (fst (authenticate self client service))) =
           _refresh_token self).
Proof.
  cbn zeta. split; [|split].
  - intros k c1 Hk Hne Hcall.
    assert (Htruthy : truthy (_key self) = true).
    { rewrite Hk. now apply truthy_Some. }
    split.
    { unfold authenticate. now rewrite Htruthy, Hcall. }
    split; [reflexivity|]. split; [reflexivity|]. split.
    + intros now Hfresh. unfold is_authenticated. cbn. now rewrite Hfresh.
    + intros tok Htok. unfold dump_object. cbn. now rewrite Htok.
  - intros k Hk Hne. unfold authenticate.
    rewrite Hk, (truthy_Some k Hne).
    now destruct (Client_authenticate service _) as [c1 [e|]].
  - intros Hkey. apply truthy_false in Hkey. unfold authenticate.
    rewrite Hkey.
    now destruct (Client_refresh service _) as [c1 [e|]].
Qed.

(** *** The durable state *)

Lemma step_uuid (self : t) (o : op) : _uuid (fst (step self o)) = _uuid self.
Proof.
  destruct o as [client service|now|now|]; try reflexivity.
  cbn. pose proof (authenticate_frame self client service) as (_ & _ & Hu).
  now destruct (authenticate self client service) as [[self' calls] r].
Qed.

Lemma step_dump_object (self : t) (o : op) :
  match o with
  | Authenticate _ _ => succeeds self o = false
  | _ => True
  end ->
  dump_object (fst (step self o)) = dump_object self.
Proof.
  destruct o as [client service|now|now|]; try reflexivity.
  unfold succeeds. cbn.
  pose proof (authenticate_frame self client service) as (_ & _ & Hu).
  destruct (authenticate self client service) as [[self' calls] [[]|e]] eqn:Hauth;
    cbn in *; [discriminate|].
  intros _. apply dump_object_fields; [|exact Hu].
  exact (authenticate_raise_refresh_token _ _ _ _ _ _ Hauth).
Qed.

Lemma run_uuid (os : list op) : forall self, _uuid (run self os) = _uuid self.
Proof.
  induction os as [|o os IH]; intros self; [reflexivity|].
  cbn [run]. now rewrite IH, step_uuid.
Qed.

Lemma run_dump_object (os : list op) :
  forall self, no_successful_authenticate self os = true ->
               dump_object (run self os) = dump_object self.
Proof.
  induction os as [|o os IH]; intros self; [reflexivity|].
  cbn [run no_successful_authenticate]. intros [Ho Hos]%andb_prop.
  rewrite (IH _ Hos). apply step_dump_object.
  destruct o; [|exact I..]. now apply negb_true_iff.
Qed.

(** C10: an [authenticate] that raises, whatever it raises, leaves the
    refresh token and the identifier, and so the result of [dump_object].
    The identifier is the one the constructor parsed (the nil UUID when it
    was given none) after any sequence of calls, and [dump_object] gives
    what it gave before any sequence of calls in which no [authenticate]
    returned. *)
Theorem durable_state_preserved (self : t) :
  (forall client service self' calls e,
      authenticate self client service = (self', calls, Raise e) ->
      _refresh_token self' = _refresh_token self
      /\ _uuid self' = _uuid self
      /\ dump_object self' = dump_object self)
  /\ (forall os, _uuid (run self os) = _uuid self)
  /\ (forall o, _uuid (fst (step self o)) = _uuid self)
  /\ (forall os, no_successful_authenticate self os = true ->
        dump_object (run self os) = dump_object self)
  /\ (forall environ key refresh_token remote_uri,
      __init__ environ key refresh_token remote_uri None = Ok self ->
      UUID_of_string "00000000-0000-0000-0000-000000000000" = Ok (_uuid self)).
Proof.
  split; [|split; [|split; [|split]]].
  - intros client service self' calls e Hauth.
    pose proof (authenticate_raise_refresh_token _ _ _ _ _ _ Hauth) as Hr.
    pose proof (authenticate_frame self client service) as (_ & _ & Hu).
    rewrite Hauth in Hu. cbn in Hu.
    split; [exact Hr|]. split; [exact Hu|].
    now apply dump_object_fields.
  - intros os. apply run_uuid.
  - intros o. apply step_uuid.
  - intros os. apply run_dump_object.
  - intros environ key refresh_token remote_uri Hinit.
    now apply init_fields in Hinit as (_ & _ & Hu & _).
Qed.

End ClientProperties.

(** * The properties on concrete inputs *)

Section Instances.

Import Sim Scenario JWThenticatorAuthClient.

Lemma sim_uuid_messages (s : string) :
  uuid_of_string s <> Raise configuration_error.
Proof.
  unfold uuid_of_string.
  destruct (_ && _); discriminate.
Defined.

(** The constructor on a key alone. *)
Lemma init_needs_key_or_refresh_token_witness :
  (forall s, UUID_of_string s <> Raise configuration_error)
  /\ (Some "secret" <> None \/ @None string <> None)
  /\ __init__ ∅ None None None None = Raise configuration_error
  /\ __init__ ∅ (Some "secret") None None None <> Raise configuration_error
  /\ __init__ ∅ (Some "secret") None None None = Ok (constructed (Some "secret") None).
Proof.
  pose proof (init_needs_key_or_refresh_token ∅ (Some "secret") None None None)
    as (Hnone & _ & Hone).
  split; [exact sim_uuid_messages|].
  split; [left; discriminate|].
  split; [exact Hnone|].
  split; [|reflexivity].
  apply Hone; [exact sim_uuid_messages|left; discriminate].
Defined.

(** The endpoint of the specification's example. *)
Lemma authenticate_endpoint_witness :
  URL_as_string (jwthenticator_url (constructed (Some "secret") None) peer) =
    "https://host:9999/jwthenticator"
  /\ host (jwthenticator_url (constructed (Some "secret") None) peer) = "host"
  /\ port (jwthenticator_url (constructed (Some "secret") None) peer) = "9999"
  /\ scheme (jwthenticator_url (constructed (Some "secret") None) peer) = "https".
Proof.
  pose proof (authenticate_endpoint (constructed (Some "secret") None) peer accepting)
    as (_ & _ & Hscheme & _ & Hhost & Hport & _).
  split; [reflexivity|].
  split; [rewrite Hhost; reflexivity|].
  split; [rewrite Hport; reflexivity|].
  rewrite Hscheme; reflexivity.
Defined.

(** A first attempt that the service rejects. *)
Lemma authenticate_rejected_witness :
  token_call (constructed (Some "secret") None) Rejects
    (new_jwthenticator_client (constructed (Some "secret") None) peer) =
    (client_init "https://host:9999/jwthenticator" nil_uuid (Some "secret") None true,
     Some (AuthenticationError "Failed to authenticate"))
  /\ snd (authenticate (constructed (Some "secret") None) peer Rejects) =
       Raise (NETunnelAuthError
                "Failed to authenticate with `https://host:9999/jwthenticator`")
  /\ _refresh_token (fst (fst (authenticate (constructed (Some "secret") None) peer Rejects))) =
       None.
Proof.
  split; [reflexivity|].
  generalize (authenticate_rejected (constructed (Some "secret") None) peer Rejects
                _ _ eq_refl).
  destruct (authenticate (constructed (Some "secret") None) peer Rejects)
    as [[self' calls] r].
  intros (Hr & _ & _ & _ & Htok & _).
  split; [exact Hr|exact Htok].
Defined.

(** C1 as stated fails: an authenticated shim whose next attempt is rejected
    raises [NETunnelAuthError] and is left with the token client of that
    attempt, which has no session token; the one that held the valid session
    is gone, and [is_authenticated] turns false. *)
Lemma authenticate_rejected_loses_session :
  authenticate (constructed (Some "secret") None) peer accepting =
    (authenticated, [Call_authenticate (client_init "https://host:9999/jwthenticator"
                                          nil_uuid (Some "secret") None true)], Ok tt)
  /\ is_authenticated authenticated 50%Z = true
  /\ snd (authenticate authenticated peer Rejects) =
       Raise (NETunnelAuthError
                "Failed to authenticate with `https://host:9999/jwthenticator`")
  /\ _jwthenticator_client authenticated = Some served
  /\ _jwthenticator_client (fst (fst (authenticate authenticated peer Rejects))) =
       Some (client_init "https://host:9999/jwthenticator" nil_uuid (Some "secret")
               (Some "refresh-1") true)
  /\ fst (fst (authenticate authenticated peer Rejects)) <> authenticated
  /\ is_authenticated (fst (fst (authenticate authenticated peer Rejects))) 50%Z = false.
Proof.
  repeat (split; [reflexivity|]).
  split; [discriminate|reflexivity].
Qed.

(** The headers of an authenticated shim. *)
Lemma get_authorized_headers_witness :
  is_authenticated authenticated 50%Z = true
  /\ get_authorized_headers authenticated 50%Z =
       Ok {[ "Authorization" := "Bearer jwt-1" ]}
  /\ get_authorized_headers (constructed (Some "secret") None) 50%Z =
       Raise not_authenticated_headers
  /\ get_authorized_headers authenticated 100%Z = Raise not_authenticated_headers.
Proof.
  pose proof (get_authorized_headers_spec authenticated 50%Z)
    as (_ & _ & Hyes & _).
  pose proof (get_authorized_headers_spec (constructed (Some "secret") None) 50%Z)
    as (_ & _ & _ & Hinit).
  pose proof (get_authorized_headers_spec authenticated 100%Z) as ([_ Hno] & _).
  split; [reflexivity|].
  split.
  - destruct (Hyes eq_refl) as (c & Hc & _ & Htok).
    injection Hc as <-. exact (Htok "jwt-1" eq_refl).
  - split; [|exact (Hno eq_refl)].
    exact (proj2 (Hinit ∅ (Some "secret") None None None eq_refl)).
Defined.

(** The durable state of an authenticated shim. *)
Lemma dump_object_witness :
  _refresh_token authenticated = Some "refresh-1"
  /\ dump_object authenticated =
       Ok (<[ "refresh_token" := "refresh-1" ]>
             {[ "uuid" := "00000000-0000-0000-0000-000000000000" ]})
  /\ dump_object (constructed (Some "secret") None) = Raise not_authenticated_dump.
Proof.
  pose proof (dump_object_spec authenticated) as (_ & _ & Hsome & _).
  pose proof (dump_object_spec (constructed (Some "secret") None)) as ([_ Hnone] & _).
  split; [reflexivity|].
  split; [exact (proj1 (Hsome "refresh-1" eq_refl))|exact (Hnone eq_refl)].
Defined.

(** A first attempt with a key that the service accepts, and a refresh. *)
Lemma authenticate_by_key_witness :
  _key (constructed (Some "secret") None) = Some "secret"
  /\ "secret" <> ""
  /\ Client_authenticate accepting
       (new_jwthenticator_client (constructed (Some "secret") None) peer) =
       (served, None)
  /\ authenticate (constructed (Some "secret") None) peer accepting =
       (authenticated,
        [Call_authenticate
           (new_jwthenticator_client (constructed (Some "secret") None) peer)],
        Ok tt)
  /\ is_authenticated authenticated 50%Z = true
  /\ dump_object authenticated = Ok (durable_state "refresh-1" nil_uuid)
  /\ snd (fst (authenticate (constructed None (Some "refresh-0")) peer accepting)) =
       [Call_refresh
          (new_jwthenticator_client (constructed None (Some "refresh-0")) peer)].
Proof.
  pose proof (authenticate_by_key (constructed (Some "secret") None) peer accepting)
    as (Hfull & _ & _).
  pose proof (authenticate_by_key (constructed None (Some "refresh-0")) peer accepting)
    as (_ & _ & Hrefresh).
  assert (Hne : "secret" <> "") by discriminate.
  destruct (Hfull "secret" served eq_refl Hne eq_refl)
    as (Hauth & _ & _ & Hfresh & Hdump).
  split; [reflexivity|].
  split; [exact Hne|].
  split; [reflexivity|].
  split; [exact Hauth|].
  split; [exact (Hfresh 50%Z eq_refl)|].
  split; [exact (Hdump "refresh-1" eq_refl)|].
  exact (proj1 (Hrefresh (or_introl eq_refl))).
Defined.

(** C7 as stated fails: the constructor accepts the empty string for a key,
    and [authenticate] then makes the refresh call, not the full
    authentication; the refresh token the service would have issued is not
    taken, and [dump_object] gives the one the shim was built with. *)
Lemma authenticate_with_empty_key_refreshes :
  __init__ ∅ (Some "") (Some "refresh-0") None None =
    Ok (constructed (Some "") (Some "refresh-0"))
  /\ snd (fst (authenticate (constructed (Some "") (Some "refresh-0")) peer accepting)) =
       [Call_refresh
          (client_init "https://host:9999/jwthenticator" nil_uuid (Some "")
             (Some "refresh-0") true)]
  /\ snd (authenticate (constructed (Some "") (Some "refresh-0")) peer accepting) = Ok tt
  /\ _refresh_token
       (fst (fst (authenticate (constructed (Some "") (Some "refresh-0")) peer accepting))) =
       Some "refresh-0"
  /\ dump_object
       (fst (fst (authenticate (constructed (Some "") (Some "refresh-0")) peer accepting))) =
       Ok (durable_state "refresh-0" nil_uuid).
Proof.
  repeat split.
Qed.

(** The sub-path of both shims for an argument, for the environment variable
    and for neither. *)
Lemma remote_uri_resolution_witness :
  __init__ {[ "JWTHENTICATOR_URI" := "/from-env" ]} (Some "secret") None (Some "/given") None =
    Ok (mk "/given" (Some "secret") None nil_uuid None)
  /\ JWThenticatorAuthServer._remote_uri
       (JWThenticatorAuthServer.__init__ {[ "JWTHENTICATOR_URI" := "/from-env" ]}
          (Some "/given")) = "/given"
  /\ JWThenticatorAuthServer._remote_uri
       (JWThenticatorAuthServer.__init__ {[ "JWTHENTICATOR_URI" := "/from-env" ]} None) =
       "/from-env"
  /\ JWThenticatorAuthServer._remote_uri (JWThenticatorAuthServer.__init__ ∅ None) =
       "/jwthenticator".
Proof.
  pose proof (remote_uri_resolution {[ "JWTHENTICATOR_URI" := "/from-env" ]}
                (Some "/given") (Some "secret") None None) as (Hclient & Hgiven & _).
  pose proof (remote_uri_resolution {[ "JWTHENTICATOR_URI" := "/from-env" ]}
                None (Some "secret") None None) as (_ & _ & Henv & _).
  pose proof (remote_uri_resolution ∅ None (Some "secret") None None)
    as (_ & _ & _ & Hdefault & _).
  split; [reflexivity|].
  split; [apply Hgiven; [reflexivity|discriminate]|].
  split; [apply Henv; [left; reflexivity|reflexivity]|].
  apply Hdefault; [left; reflexivity|reflexivity].
Defined.

(** C9 as stated fails: the empty string given as the sub-path is passed
    over, in both constructors, for the environment variable or the
    default. *)
Lemma empty_remote_uri_is_passed_over :
  spec_remote_uri (Some "") ∅ = ""
  /\ JWThenticatorAuthServer._remote_uri (JWThenticatorAuthServer.__init__ ∅ (Some "")) =
       "/jwthenticator"
  /\ spec_remote_uri (Some "") {[ "JWTHENTICATOR_URI" := "/from-env" ]} = ""
  /\ __init__ {[ "JWTHENTICATOR_URI" := "/from-env" ]} (Some "secret") None (Some "") None =
       Ok (mk "/from-env" (Some "secret") None nil_uuid None).
Proof.
  repeat split.
Qed.

(** The durable state through a rejected attempt and through reads. *)
Lemma durable_state_preserved_witness :
  snd (authenticate authenticated peer Rejects) =
    Raise (NETunnelAuthError
             "Failed to authenticate with `https://host:9999/jwthenticator`")
  /\ dump_object (fst (fst (authenticate authenticated peer Rejects))) =
       dump_object authenticated
  /\ no_successful_authenticate authenticated
       [Authenticate peer Rejects; GetAuthorizedHeaders 50%Z; DumpObject] = true
  /\ dump_object
       (run authenticated
          [Authenticate peer Rejects; GetAuthorizedHeaders 50%Z; DumpObject]) =
       dump_object authenticated
  /\ UUID_of_string "00000000-0000-0000-0000-000000000000" =
       Ok (_uuid (constructed (Some "secret") None)).
Proof.
  pose proof (durable_state_preserved authenticated) as (Hfail & _ & _ & Hrun & _).
  pose proof (durable_state_preserved (constructed (Some "secret") None))
    as (_ & _ & _ & _ & Hnil).
  split; [reflexivity|].
  split.
  - destruct (authenticate authenticated peer Rejects) as [[self' calls] [u|e]] eqn:Hauth;
      [discriminate|].
    exact (proj2 (proj2 (Hfail peer Rejects self' calls e Hauth))).
  - split; [reflexivity|].
    split; [apply Hrun; reflexivity|].
    exact (Hnil ∅ (Some "secret") None None eq_refl).
Defined.

End Instances.

(** * Further properties of the shims *)

Section FurtherProperties.

Context `{JwthenticatorLib} `{YurlLib}.

Import JWThenticatorAuthClient.

Lemma str_or_empty (x : option string) (y : string) : str_or x y = "" -> y = "".
Proof.
  destruct x as [[|a s]|]; cbn; [auto|discriminate|auto].
Qed.

Lemma init_passes (environ : gmap string string)
    (key refresh_token remote_uri uuid : option string) :
  key <> None \/ refresh_token <> None ->
  __init__ environ key refresh_token remote_uri uuid =
    match UUID_of_string (str_or uuid nil_uuid_string) with
    | Raise e => Raise e
    | Ok u =>
        Ok {| _remote_uri :=
                str_or remote_uri
                  (environ_get environ "JWTHENTICATOR_URI" "/jwthenticator");
              _key := key; _refresh_token := refresh_token;
              _uuid := u; _jwthenticator_client := None |}
    end.
Proof.
  unfold __init__. destruct key, refresh_token; try reflexivity.
  intros [Hk|Hr]; contradiction.
Qed.

(** *** The shim a server hands out *)

(** X1: [get_client_for_peer] is the client constructor with the server's
    sub-path for an argument: without key and refresh token it raises the
    configuration error; a shim it returns holds the key and the refresh
    token as given and no token client.  Its sub-path is the server's when
    that is not empty; an empty one is resolved again, in the environment of
    this call.  In the environment the server was built in, the two
    sub-paths are always the same. *)
Theorem get_client_for_peer_spec (self : JWThenticatorAuthServer.t)
    (environ : gmap string string) (key refresh_token uuid : option string) :
  JWThenticatorAuthServer.get_client_for_peer self environ None None uuid =
    Raise configuration_error
  /\ (forall c,
      JWThenticatorAuthServer.get_client_for_peer self environ key refresh_token uuid = Ok c ->
      _key c = key
      /\ _refresh_token c = refresh_token
      /\ _jwthenticator_client c = None
      /\ (forall now, is_authenticated c now = false)
      /\ (JWThenticatorAuthServer._remote_uri self <> "" ->
          _remote_uri c = JWThenticatorAuthServer._remote_uri self)
      /\ (JWThenticatorAuthServer._remote_uri self = "" ->
          _remote_uri c = environ_get environ "JWTHENTICATOR_URI" "/jwthenticator")
      /\ (forall remote_uri,
          self = JWThenticatorAuthServer.__init__ environ remote_uri ->
          _remote_uri c = JWThenticatorAuthServer._remote_uri self)).
Proof.
  split; [reflexivity|].
  unfold JWThenticatorAuthServer.get_client_for_peer. intros c Hinit.
  pose proof (client_init_remote_uri _ _ _ _ _ _ Hinit) as Huri.
  apply init_fields in Hinit as (Hk & Hr & _ & Hc).
  split; [exact Hk|]. split; [exact Hr|]. split; [exact Hc|].
  split; [intros now; unfold is_authenticated; now rewrite Hc|].
  assert (Hne : JWThenticatorAuthServer._remote_uri self <> "" ->
                _remote_uri c = JWThenticatorAuthServer._remote_uri self).
  { intros Hs. rewrite Huri. now apply str_or_truthy. }
  assert (He : JWThenticatorAuthServer._remote_uri self = "" ->
               _remote_uri c = environ_get environ "JWTHENTICATOR_URI" "/jwthenticator").
  { intros Hs. rewrite Huri, Hs. reflexivity. }
  split; [exact Hne|]. split; [exact He|].
  intros remote_uri ->.
  destruct (string_dec
              (JWThenticatorAuthServer._remote_uri
                 (JWThenticatorAuthServer.__init__ environ remote_uri)) "")
    as [Hs|Hs]; [|exact (Hne Hs)].
  rewrite (He Hs), Hs. cbn in Hs. now apply str_or_empty in Hs.
Qed.

(** *** The identifier *)

(** X2: the constructor reads the identifier with [uuid or nil]: the empty
    string gives the shim that no identifier gives.  Past the check on key
    and refresh token, any other string is parsed by [UUID]: what [UUID]
    raises, the constructor raises, and what it returns is the identifier of
    the shim. *)
Theorem init_identifier (environ : gmap string string)
    (key refresh_token remote_uri : option string) :
  __init__ environ key refresh_token remote_uri (Some "") =
    __init__ environ key refresh_token remote_uri None
  /\ (forall s e,
      key <> None \/ refresh_token <> None ->
      s <> "" ->
      UUID_of_string s = Raise e ->
      __init__ environ key refresh_token remote_uri (Some s) = Raise e)
  /\ (forall s u,
      key <> None \/ refresh_token <> None ->
      s <> "" ->
      UUID_of_string s = Ok u ->
      exists self,
        __init__ environ key refresh_token remote_uri (Some s) = Ok self
        /\ _uuid self = u).
Proof.
  split; [reflexivity|]. split.
  - intros s e Hone Hs Hu. rewrite (init_passes _ _ _ _ _ Hone).
    rewrite (str_or_truthy (Some s) s _ eq_refl Hs). now rewrite Hu.
  - intros s u Hone Hs Hu. rewrite (init_passes _ _ _ _ _ Hone).
    rewrite (str_or_truthy (Some s) s _ eq_refl Hs). rewrite Hu.
    eexists. split; reflexivity.
Qed.

(** *** Exceptions of [authenticate] *)

(** X3: [authenticate] never lets an [AuthenticationError] out.  Any other
    exception of the call on the token client comes out as it is, and the
    shim is left holding the token client of the attempt, with the refresh
    token it had. *)
Theorem authenticate_exceptions (self : t) (client : NETunnelClient) (service : Service) :
  (forall msg, snd (authenticate self client service) <> Raise (AuthenticationError msg))
  /\ (forall c1 e,
      token_call self service (new_jwthenticator_client self client) = (c1, Some e) ->
      (forall msg, e <> AuthenticationError msg) ->
      authenticate self client service =
        (set_jwthenticator_client self (Some c1),
         [token_call_event self (new_jwthenticator_client self client)],
         Raise e)).
Proof.
  split.
  - intros msg.
    destruct (token_call self service (new_jwthenticator_client self client))
      as [c1 [e|]] eqn:Hcall.
    + rewrite (authenticate_raised _ _ _ _ _ Hcall). cbn.
      destruct e; cbn; congruence.
    + rewrite (authenticate_returned _ _ _ _ Hcall). discriminate.
  - intros c1 e Hcall Hother. rewrite (authenticate_raised _ _ _ _ _ Hcall).
    destruct e; try reflexivity. now contradiction (Hother msg).
Qed.

(** *** The headers after an attempt *)

(** X4: whatever the shim held before and whether [authenticate] returned
    or raised, the headers afterwards are those of the token client of this
    attempt: its session token if that has not expired at the time of
    asking, [NETunnelNotAuthenticatedError] otherwise.  A session token of
    an earlier attempt is never given out. *)
Theorem headers_after_authenticate (self : t) (client : NETunnelClient)
    (service : Service) (now : Time) :
  let c1 := fst (token_call self service (new_jwthenticator_client self client)) in
  get_authorized_headers (fst (fst (authenticate self client service))) now =
    if Client_is_jwt_expired now c1
    then Raise not_authenticated_headers
    else Ok {[ "Authorization" := "Bearer " ++ py_str (Client_jwt c1) ]}.
Proof.
  cbn zeta. pose proof (authenticate_stores_client self client service) as Hc.
  unfold get_authorized_headers, is_authenticated. rewrite Hc.
  now destruct (Client_is_jwt_expired now _).
Qed.

(** *** One shim over its lifetime *)

Lemma step_fst (self : t) (o : op) :
  fst (step self o) =
    match o with
    | Authenticate client service => fst (fst (authenticate self client service))
    | _ => self
    end.
Proof.
  destruct o as [client service|now|now|]; try reflexivity.
  cbn. now destruct (authenticate self client service) as [[self' calls] r].
Qed.

Lemma authenticate_calls (self : t) (client : NETunnelClient) (service : Service) :
  snd (fst (authenticate self client service)) =
    [token_call_event self (new_jwthenticator_client self client)].
Proof.
  destruct (token_call self service (new_jwthenticator_client self client))
    as [c1 [e|]] eqn:Hcall.
  - now rewrite (authenticate_raised _ _ _ _ _ Hcall).
  - now rewrite (authenticate_returned _ _ _ _ Hcall).
Qed.

Lemma authenticate_falsy_keeps_token (self : t) (client : NETunnelClient)
    (service : Service) :
  truthy (_key self) = false ->
  _refresh_token (fst (fst (authenticate self client service))) = _refresh_token self.
Proof.
  intros Hkey. unfold authenticate. rewrite Hkey.
  now destruct (Client_refresh service _) as [c1 [e|]].
Qed.

Lemma step_key_remote_uri (self : t) (o : op) :
  _key (fst (step self o)) = _key self
  /\ _remote_uri (fst (step self o)) = _remote_uri self.
Proof.
  rewrite step_fst. destruct o as [client service|now|now|]; try (split; reflexivity).
  pose proof (authenticate_frame self client service) as (Hu & Hk & _).
  split; [exact Hk|exact Hu].
Qed.

Lemma step_holds_credential (self : t) (o : op) :
  holds_credential self -> holds_credential (fst (step self o)).
Proof.
  unfold holds_credential. intros Hcred.
  pose proof (step_key_remote_uri self o) as (Hk & _).
  destruct (_key self) as [k|] eqn:Hkey.
  - left. rewrite Hk. discriminate.
  - right. destruct Hcred as [Hcred|Hcred]; [contradiction|].
    rewrite step_fst. destruct o as [client service|now|now|]; try exact Hcred.
    rewrite authenticate_falsy_keeps_token; [exact Hcred|].
    now rewrite Hkey.
Qed.

(** X5: no sequence of calls changes the key or the sub-path of a shim, and a
    shim that holds a key or a refresh token, as every shim out of the
    constructor does, holds one after any sequence of calls, whatever the
    token service answered. *)
Theorem credentials_over_lifetime (self : t) (os : list op) :
  _key (run self os) = _key self
  /\ _remote_uri (run self os) = _remote_uri self
  /\ (holds_credential self -> holds_credential (run self os))
  /\ (forall environ key refresh_token remote_uri uuid,
      __init__ environ key refresh_token remote_uri uuid = Ok self ->
      holds_credential (run self os)).
Proof.
  assert (Hrun : _key (run self os) = _key self
                 /\ _remote_uri (run self os) = _remote_uri self
                 /\ (holds_credential self -> holds_credential (run self os))).
  { revert self. induction os as [|o os IH]; intros self; [now repeat split|].
    cbn [run]. destruct (IH (fst (step self o))) as (Hk & Hu & Hc).
    pose proof (step_key_remote_uri self o) as (Hk1 & Hu1).
    split; [congruence|]. split; [congruence|].
    intros Hcred. apply Hc. now apply step_holds_credential. }
  destruct Hrun as (Hk & Hu & Hc).
  split; [exact Hk|]. split; [exact Hu|]. split; [exact Hc|].
  intros environ key refresh_token remote_uri uuid Hinit. apply Hc.
  unfold holds_credential.
  pose proof (init_fields _ _ _ _ _ _ Hinit) as (Hkey & Href & _).
  rewrite Hkey, Href. unfold __init__ in Hinit.
  destruct key; [left; discriminate|].
  destruct refresh_token; [right; discriminate|discriminate].
Qed.

(** X6: every [authenticate] makes exactly one call on a token client, and over
    the lifetime of a shim it is always the same operation: the full
    authentication when the key counts as true, the refresh when it does
    not.  A shim with a key never refreshes, also once it holds a refresh
    token. *)
Theorem operation_over_lifetime (self : t) (os : list op) :
  length (run_calls self os) = length (List.filter is_Authenticate os)
  /\ Forall (fun c => is_full_authentication c = truthy (_key self))
       (run_calls self os).
Proof.
  revert self. induction os as [|o os IH]; intros self.
  - split; [reflexivity|constructor].
  - cbn [run_calls List.filter]. destruct (IH (fst (step self o))) as (Hlen & Hall).
    pose proof (step_key_remote_uri self o) as (Hk & _). rewrite Hk in Hall.
    destruct o as [client service|now|now|]; cbn [is_Authenticate];
      try (split; [exact Hlen|exact Hall]).
    rewrite authenticate_calls. cbn [app length]. split; [now rewrite Hlen|].
    constructor; [|exact Hall].
    unfold token_call_event. now destruct (truthy (_key self)).
Qed.

(** X7: a shim whose key does not count as true never takes anything from the
    token service into its durable state: after any sequence of calls it
    holds the refresh token it started with, [dump_object] gives what it
    gave at the start, and every call it made was a refresh on a token
    client built with that same token, key and identifier. *)
Theorem refresh_only_lifetime (self : t) (os : list op) :
  truthy (_key self) = false ->
  _refresh_token (run self os) = _refresh_token self
  /\ dump_object (run self os) = dump_object self
  /\ Forall (fun c => exists url verify,
                 c = Call_refresh
                       (Client_init url (_uuid self) (_key self)
                          (_refresh_token self) verify))
       (run_calls self os).
Proof.
  revert self. induction os as [|o os IH]; intros self Hkey.
  - split; [reflexivity|]. split; [reflexivity|constructor].
  - cbn [run run_calls].
    pose proof (step_key_remote_uri self o) as (Hk & _).
    assert (Htok : _refresh_token (fst (step self o)) = _refresh_token self).
    { rewrite step_fst. destruct o as [client service|now|now|]; try reflexivity.
      now apply authenticate_falsy_keeps_token. }
    assert (Hu : _uuid (fst (step self o)) = _uuid self) by apply step_uuid.
    destruct (IH (fst (step self o))) as (Hr & Hd & Hall); [now rewrite Hk|].
    rewrite Hk, Htok, Hu in Hall.
    split; [congruence|]. split.
    { rewrite Hd. now apply dump_object_fields. }
    destruct o as [client service|now|now|]; try exact Hall.
    rewrite authenticate_calls. cbn [app]. constructor; [|exact Hall].
    unfold token_call_event, new_jwthenticator_client. rewrite Hkey.
    eexists _, _. reflexivity.
Qed.

(** *** The durable state, dumped and given back *)

(** X8: what [dump_object] returns rebuilds the shim's durable state: given to
    the constructor as [refresh_token] and [uuid], without a key, it yields
    a shim with the same refresh token and identifier and no token client,
    whose own [dump_object] returns the same dictionary, and whose
    [authenticate] refreshes with that token.  This needs that [UUID] reads
    back what [str] printed for the identifier, and that this is not the
    empty string. *)
Theorem dump_object_rehydrates (self : t) (environ : gmap string string)
    (remote_uri : option string) (d : gmap string string) :
  UUID_of_string (UUID_str (_uuid self)) = Ok (_uuid self) ->
  UUID_str (_uuid self) <> "" ->
  dump_object self = Ok d ->
  exists restored,
    __init__ environ None (d !! "refresh_token") remote_uri (d !! "uuid") = Ok restored
    /\ _key restored = None
    /\ _refresh_token restored = _refresh_token self
    /\ _uuid restored = _uuid self
    /\ _jwthenticator_client restored = None
    /\ dump_object restored = Ok d
    /\ (forall client service,
        snd (fst (authenticate restored client service)) =
          [Call_refresh
             (Client_init (URL_as_string (jwthenticator_url restored client))
                (_uuid self) None (_refresh_token self)
                (get_verify_ssl (ssl client)))]).
Proof.
  intros Hround Hstr. unfold dump_object.
  destruct (_refresh_token self) as [tok|] eqn:Htok; [|discriminate].
  intros [= <-].
  rewrite lookup_insert_eq.
  rewrite lookup_insert_ne by discriminate. rewrite lookup_singleton_eq.
  rewrite init_passes by (right; discriminate).
  rewrite (str_or_truthy (Some (UUID_str (_uuid self))) _ _ eq_refl Hstr).
  rewrite Hround. eexists. split; [reflexivity|].
  repeat (split; [reflexivity|]).
  intros client service. rewrite authenticate_calls. reflexivity.
Qed.

End FurtherProperties.

(** * The further properties on concrete inputs *)

Section FurtherInstances.

Import Sim Scenario JWThenticatorAuthClient.

(** A server with the sub-path ["/auth"], and one whose sub-path came out
    empty from the environment: the client of the second takes the variable
    as it stands when the client is made. *)
Lemma get_client_for_peer_witness :
  JWThenticatorAuthServer.get_client_for_peer
    (JWThenticatorAuthServer.__init__ ∅ (Some "/auth"))
    {[ "JWTHENTICATOR_URI" := "/other" ]} (Some "secret") None None =
    Ok (mk "/auth" (Some "secret") None nil_uuid None)
  /\ JWThenticatorAuthServer._remote_uri
       (JWThenticatorAuthServer.__init__ {[ "JWTHENTICATOR_URI" := "" ]} None) = ""
  /\ _remote_uri (mk "/other" (Some "secret") None nil_uuid None) =
       environ_get {[ "JWTHENTICATOR_URI" := "/other" ]} "JWTHENTICATOR_URI" "/jwthenticator"
  /\ JWThenticatorAuthServer.get_client_for_peer
       (JWThenticatorAuthServer.__init__ {[ "JWTHENTICATOR_URI" := "" ]} None)
       {[ "JWTHENTICATOR_URI" := "/other" ]} (Some "secret") None None =
       Ok (mk "/other" (Some "secret") None nil_uuid None).
Proof.
  pose proof (get_client_for_peer_spec
                (JWThenticatorAuthServer.__init__ {[ "JWTHENTICATOR_URI" := "" ]} None)
                {[ "JWTHENTICATOR_URI" := "/other" ]} (Some "secret") None None)
    as (_ & Hclient).
  destruct (Hclient (mk "/other" (Some "secret") None nil_uuid None) eq_refl)
    as (_ & _ & _ & _ & _ & Hempty & _).
  split; [reflexivity|]. split; [reflexivity|].
  split; [exact (Hempty eq_refl)|reflexivity].
Defined.

(** A malformed identifier, with a key. *)
Lemma init_identifier_witness :
  (Some "secret" <> None \/ @None string <> None)
  /\ "not-a-uuid" <> ""
  /\ UUID_of_string "not-a-uuid" =
       Raise (ValueError "badly formed hexadecimal UUID string")
  /\ __init__ ∅ (Some "secret") None None (Some "not-a-uuid") =
       Raise (ValueError "badly formed hexadecimal UUID string").
Proof.
  pose proof (init_identifier ∅ (Some "secret") None None) as (_ & Hraise & _).
  assert (Hone : Some "secret" <> None \/ @None string <> None)
    by (left; discriminate).
  assert (Hs : "not-a-uuid" <> "") by discriminate.
  split; [exact Hone|]. split; [exact Hs|]. split; [reflexivity|].
  exact (Hraise "not-a-uuid" _ Hone Hs eq_refl).
Defined.

(** A shim with the empty string for a key and no refresh token: the refresh
    call raises for want of a token, and that exception comes out as it
    is. *)
Lemma authenticate_exceptions_witness :
  token_call (constructed (Some "") None) accepting
    (new_jwthenticator_client (constructed (Some "") None) peer) =
    (client_init "https://host:9999/jwthenticator" nil_uuid (Some "") None true,
     Some (OtherException "No refresh token was given"))
  /\ snd (authenticate (constructed (Some "") None) peer accepting) =
       Raise (OtherException "No refresh token was given").
Proof.
  pose proof (authenticate_exceptions (constructed (Some "") None) peer accepting)
    as (_ & Hother).
  split; [reflexivity|].
  rewrite (Hother _ _ eq_refl); [reflexivity|].
  intros msg. discriminate.
Defined.

(** A shim holding a key through an accepted and a rejected attempt. *)
Lemma credentials_over_lifetime_witness :
  holds_credential (constructed (Some "secret") None)
  /\ holds_credential
       (run (constructed (Some "secret") None)
          [Authenticate peer accepting; DumpObject; Authenticate peer Rejects])
  /\ _key (run (constructed (Some "secret") None)
             [Authenticate peer accepting; DumpObject; Authenticate peer Rejects]) =
       Some "secret".
Proof.
  assert (H0 : holds_credential (constructed (Some "secret") None))
    by (left; discriminate).
  split; [exact H0|].
  edestruct (credentials_over_lifetime (constructed (Some "secret") None))
    as (Hkey & _ & Hcred & _).
  split; [exact (Hcred H0)|exact Hkey].
Defined.

(** A shim with a refresh token only, through an accepted refresh (the
    service offers ["refresh-1"]) and a rejected one. *)
Lemma refresh_only_lifetime_witness :
  truthy (_key (constructed None (Some "refresh-0"))) = false
  /\ _refresh_token
       (run (constructed None (Some "refresh-0"))
          [Authenticate peer accepting; DumpObject; Authenticate peer Rejects]) =
       Some "refresh-0"
  /\ dump_object
       (run (constructed None (Some "refresh-0"))
          [Authenticate peer accepting; DumpObject; Authenticate peer Rejects]) =
       Ok (durable_state "refresh-0" nil_uuid).
Proof.
  split; [reflexivity|].
  edestruct (refresh_only_lifetime (constructed None (Some "refresh-0")))
    as (Htok & Hdump & _); [reflexivity|].
  split; [exact Htok|exact Hdump].
Defined.

(** The durable state of an authenticated shim, given back to the
    constructor. *)
Lemma dump_object_rehydrates_witness :
  UUID_of_string (UUID_str (_uuid authenticated)) = Ok (_uuid authenticated)
  /\ UUID_str (_uuid authenticated) <> ""
  /\ dump_object authenticated = Ok (durable_state "refresh-1" nil_uuid)
  /\ exists restored,
       __init__ ∅ None (durable_state "refresh-1" nil_uuid !! "refresh_token") None
         (durable_state "refresh-1" nil_uuid !! "uuid") = Ok restored
       /\ _key restored = None
       /\ _refresh_token restored = Some "refresh-1"
       /\ dump_object restored = Ok (durable_state "refresh-1" nil_uuid).
Proof.
  assert (Hround : UUID_of_string (UUID_str (_uuid authenticated)) =
                     Ok (_uuid authenticated)) by reflexivity.
  assert (Hstr : UUID_str (_uuid authenticated) <> "") by discriminate.
  split; [exact Hround|]. split; [exact Hstr|]. split; [reflexivity|].
  destruct (dump_object_rehydrates authenticated ∅ None
              (durable_state "refresh-1" nil_uuid) Hround Hstr eq_refl)
    as (restored & Hinit & Hkey & Htok & _ & _ & Hdump & _).
  exists restored. split; [exact Hinit|]. split; [exact Hkey|].
  split; [exact Htok|exact Hdump].
Defined.

End FurtherInstances.
